(** * EventBlock: the pressable, animated event rectangle of the timeline

    Shallow embedding of [src/components/Timeline/EventBlock.tsx].

    Numbers.  The component only adds, subtracts, multiplies and compares
    numbers.  JavaScript numbers are idealised as exact rationals ([Qc], the
    canonical rationals, whose equality is Leibniz equality): hours such as
    9.5 and the opacity 0.5 are representable, and no rounding, NaN or
    infinity is modelled.

    Objects.  The event, the theme and the reanimated shared values are
    mutable objects that the component receives by reference.  They live in a
    [world]; props hold locations.  The press handlers build their parameter
    with an object spread, which allocates a new object in the world.

    Callbacks.  [onPressEvent] and [onLongPressEvent] are code of the parent.
    A handler does not run them in the model: it returns the list of
    invocations it performs, in order, and [run_calls] performs them against
    an environment giving each callback reference its behaviour. *)

From Stdlib Require Import QArith Qcanon Lqa.
From stdpp Require Import gmap strings list fin_maps numbers functions.

Local Open Scope Qc_scope.

(** ** Numbers *)

(** Numeric literals of the source other than 0 and 1. *)
Definition num (z : Z) : Qc := Qc_of_Z z.

(** [Math.max(a, b)] on two numbers. *)
Definition Math_max (a b : Qc) : Qc := if decide (a ≤ b) then b else a.

(** [Math.min], used only to state the in-day segment; the source has no
    call to it. *)
Definition Math_min (a b : Qc) : Qc := if decide (a ≤ b) then a else b.

(** ** Values and truthiness *)

Definition loc := nat.

(** Values held by the properties of an event that the component does not
    compute with ([id], [title], [color], [containerStyle], ...).  A nested
    object is held by reference. *)
Inductive jsval :=
| VUndefined
| VNumber (q : Qc)
| VString (s : string)
| VBoolean (b : bool)
| VObject (l : loc).

Global Instance jsval_eq_dec : EqDecision jsval.
Proof. solve_decision. Defined.

(** JavaScript truthiness, as used by [if (x)], [x ? a : b], [!!x], [x || y]. *)
Definition truthy (v : jsval) : bool :=
  match v with
  | VUndefined => false
  | VNumber q => bool_decide (q ≠ 0)
  | VString s => bool_decide (s ≠ EmptyString)
  | VBoolean b => b
  | VObject _ => true
  end.

(** An optional property [x?: T] is [None] when it is undefined. *)
Definition of_number (n : option Qc) : jsval := from_option VNumber VUndefined n.
Definition of_string (s : option string) : jsval := from_option VString VUndefined s.

(** ** PackedEvent *)

(** Modelled from the spec: [PackedEvent] is declared in [types.ts], which is
    missing.  The spec calls it the event record, holding the already-packed
    geometry of the event.  The component reads [startHour], [duration],
    [left] and [width] as numbers; every other property of the event ([id],
    [title], [color], [containerStyle], whatever the caller added) is kept in
    [rest], keyed by its name. *)
Module PackedEvent.

Record t := mk {
  startHour : Qc;
  duration : Qc;
  left : Qc;
  width : Qc;
  rest : gmap string jsval;
}.

(** The event as the JavaScript object it is: property name to value. *)
Definition to_object (e : t) : gmap string jsval :=
  <["startHour" := VNumber (startHour e)]>
    (<["duration" := VNumber (duration e)]>
      (<["left" := VNumber (left e)]>
        (<["width" := VNumber (width e)]> (rest e)))).

(** [e.name] for a property outside the four numeric ones. *)
Definition get (e : t) (name : string) : jsval :=
  default VUndefined (rest e !! name).

End PackedEvent.

(** [{ ...event, top: t, height: h, leftByIndex: l }]: a new object with the
    properties of [event], then the three written in this order. *)
Definition spread_event (event : PackedEvent.t) (top height leftByIndex : Qc)
  : PackedEvent.t :=
  {| PackedEvent.startHour := PackedEvent.startHour event;
     PackedEvent.duration := PackedEvent.duration event;
     PackedEvent.left := PackedEvent.left event;
     PackedEvent.width := PackedEvent.width event;
     PackedEvent.rest :=
       <["leftByIndex" := VNumber leftByIndex]>
         (<["height" := VNumber height]>
           (<["top" := VNumber top]> (PackedEvent.rest event))) |}.

(** ** ThemeProperties *)

(** Modelled from the spec: [ThemeProperties] is declared in [types.ts], which
    is missing.  The spec calls it the theme object; these are the properties
    the component reads. *)
Record ThemeProperties := {
  minimumEventHeight : option Qc;
  allowFontScaling : option bool;
  eventTitle : jsval;
}.

(** ** The world of shared mutable objects *)
Record world := {
  events : loc → PackedEvent.t;   (* event objects *)
  next : loc;                      (* first location no event object uses *)
  objects : loc → gmap string jsval;  (* other objects, e.g. a container style *)
  themes : loc → ThemeProperties;
  numbers : loc → Qc;              (* SharedValue<number>: its [.value] *)
  booleans : loc → bool;           (* SharedValue<boolean>: its [.value] *)
}.

(** Computations over the world. *)
Definition state (A : Type) : Type := world → A * world.

Global Instance state_ret : MRet state := λ A x w, (x, w).
Global Instance state_bind : MBind state :=
  λ A B f m w, let '(x, w') := m w in f x w'.

Definition get_event (l : loc) : state PackedEvent.t := λ w, (events w l, w).
Definition get_object (l : loc) : state (gmap string jsval) := λ w, (objects w l, w).
Definition get_theme (l : loc) : state ThemeProperties := λ w, (themes w l, w).
Definition get_number (l : loc) : state Qc := λ w, (numbers w l, w).
Definition get_boolean (l : loc) : state bool := λ w, (booleans w l, w).

(** An object literal evaluates to a new object. *)
Definition new_event (e : PackedEvent.t) : state loc := λ w,
  (next w,
   {| events := <[next w := e]> (events w);
      next := S (next w);
      objects := objects w;
      themes := themes w;
      numbers := numbers w;
      booleans := booleans w |}).

(** ** Props *)

(** A callback of the parent, held by reference. *)
Definition fn_ref := nat.

Record EventBlockProps := {
  event : loc;
  dayIndex : Qc;
  columnWidth : Qc;
  onPressEvent : option fn_ref;
  onLongPressEvent : option fn_ref;
  timeIntervalHeight : loc;
  renderEventContent : option fn_ref;
  selectedEventId : option string;
  theme : loc;
  eventAnimatedDuration : option Qc;
  isPinchActive : loc;
  heightByTimeInterval : loc;
}.

Definition EVENT_DEFAULT_COLOR : string := "#FFFFFF".

(** An invocation [f(arg)] of a callback of the parent. *)
Inductive call := Call (f : fn_ref) (arg : loc).

(** [f?.(arg)]: nothing when [f] is undefined. *)
Definition optional_call (f : option fn_ref) (arg : loc) : list call :=
  match f with
  | Some g => [Call g arg]
  | None => []
  end.

(** ** The press handlers *)

Definition _onLongPress (p : EventBlockProps) : state (list call) :=
  ev ← get_event (event p);
  h_top ← get_number (heightByTimeInterval p);
  h_height ← get_number (heightByTimeInterval p);
  eventParams ← new_event
    (spread_event ev
       (PackedEvent.startHour ev * h_top)
       (PackedEvent.duration ev * h_height)
       (columnWidth p * dayIndex p));
  mret (optional_call (onLongPressEvent p) eventParams).

Definition _onPress (p : EventBlockProps) : state (list call) :=
  ev ← get_event (event p);
  h_top ← get_number (heightByTimeInterval p);
  h_height ← get_number (heightByTimeInterval p);
  eventParams ← new_event
    (spread_event ev
       (PackedEvent.startHour ev * h_top)
       (PackedEvent.duration ev * h_height)
       (columnWidth p * dayIndex p));
  mret (optional_call (onPressEvent p) eventParams).

(** ** Styles *)

(** The value of a style property: given as it is, or a reanimated
    [withTiming(toValue, { duration })] transition towards [toValue]. *)
Inductive StyleValue :=
| Immediate (v : jsval)
| withTiming (toValue : Qc) (duration : option Qc).

Global Instance StyleValue_eq_dec : EqDecision StyleValue.
Proof. solve_decision. Defined.

(** The number a style property is, or is heading to. *)
Definition target (v : StyleValue) : option Qc :=
  match v with
  | Immediate (VNumber q) => Some q
  | Immediate _ => None
  | withTiming q _ => Some q
  end.

Definition Number (q : Qc) : StyleValue := Immediate (VNumber q).

(** [styles.eventBlock] of the style sheet at the end of the file. *)
Definition styles_eventBlock : gmap string StyleValue :=
  <["position" := Immediate (VString "absolute")]>
    (<["overflow" := Immediate (VString "hidden")]> ∅).

(** [styles.title]; [DEFAULT_PROPS.BLACK_COLOR] comes from [constants.ts],
    which is not at hand, and is kept by name. *)
Definition styles_title : gmap string StyleValue :=
  <["paddingVertical" := Number (num 4)]>
    (<["paddingHorizontal" := Number (num 2)]>
      (<["fontSize" := Number (num 10)]>
        (<["color" := Immediate (VString "DEFAULT_PROPS.BLACK_COLOR")]> ∅))).

(** The worklet of [useAnimatedStyle]. *)
Definition eventStyle (p : EventBlockProps) : state (gmap string StyleValue) :=
  ev ← get_event (event p);
  let eventHoursPreviusDays := Math_max (PackedEvent.startHour ev * -1) 0 in
  let eventHoursNextDays :=
    Math_max (PackedEvent.startHour ev + PackedEvent.duration ev - num 24) 0 in
  let eventDurationValue :=
    PackedEvent.duration ev - eventHoursPreviusDays - eventHoursNextDays in
  let eventStartHour := PackedEvent.startHour ev + eventHoursPreviusDays in
  h_start ← get_number (heightByTimeInterval p);
  let eventStartHourValue := eventStartHour * h_start in
  h_height ← get_number (heightByTimeInterval p);
  let eventHeight := eventDurationValue * h_height in
  let eventStartHourValue := eventStartHourValue + 1 in
  let eventHeight := eventHeight - 2 in
  th ← get_theme (theme p);
  let eventHeight :=
    match minimumEventHeight th with
    | Some m => if truthy (VNumber m) then Math_max m eventHeight else eventHeight
    | None => eventHeight
    end in
  pinch ← get_boolean (isPinchActive p);
  if (pinch : bool) return state (gmap string StyleValue) then
    mret (<["top" := Number eventStartHourValue]>
           (<["height" := Number eventHeight]>
             (<["left" := Number (PackedEvent.left ev + columnWidth p * dayIndex p)]>
               (<["width" := Number (PackedEvent.width ev)]> ∅))))
  else
    let hasPreviusDay := bool_decide (0 < eventHoursPreviusDays) in
    let hasNextDay := bool_decide (0 < eventHoursNextDays) in
    mret (<["top" := withTiming eventStartHourValue (eventAnimatedDuration p)]>
           (<["height" := withTiming eventHeight (eventAnimatedDuration p)]>
             (<["left" := withTiming (PackedEvent.left ev + columnWidth p * dayIndex p)
                            (eventAnimatedDuration p)]>
               (<["width" := withTiming (PackedEvent.width ev) (eventAnimatedDuration p)]>
                 (<["borderTopLeftRadius" := Number (if hasPreviusDay then 0 else num 4)]>
                   (<["borderTopRightRadius" := Number (if hasPreviusDay then 0 else num 4)]>
                     (<["borderBottomLeftRadius" := Number (if hasNextDay then 0 else num 4)]>
                       (<["borderBottomRightRadius" :=
                            Number (if hasNextDay then 0 else num 4)]> ∅)))))))).

(** ** The rendered tree *)

(** The child of the touchable. *)
Inductive content :=
| CustomContent (f : fn_ref) (event timeIntervalHeight : loc)
| TitleText (allowFontScaling : option bool)
    (style : list (gmap string StyleValue)) (title : jsval).

Module TouchableOpacity.

Record t := mk {
  disabled : bool;
  delayLongPress : Qc;
  onPress : state (list call);
  onLongPress : state (list call);
  backgroundColor : jsval;
  activeOpacity : Qc;
  children : content;
}.

End TouchableOpacity.

Module AnimatedView.

Record t := mk {
  style : list (gmap string StyleValue);
  child : TouchableOpacity.t;
}.

End AnimatedView.

(** A style given as a value: an object contributes its properties;
    [undefined] contributes nothing.  The other forms a style may take
    (registered style ids, nested arrays) are not modelled and contribute
    nothing here. *)
Definition style_of (v : jsval) : state (gmap string StyleValue) :=
  match v with
  | VObject l => o ← get_object l; mret (Immediate <$> o)
  | _ => mret ∅
  end.

Definition _renderEventContent (p : EventBlockProps) : state content :=
  th ← get_theme (theme p);
  eventTitle_style ← style_of (eventTitle th);
  ev ← get_event (event p);
  mret (TitleText (allowFontScaling th)
          [styles_title; eventTitle_style]
          (PackedEvent.get ev "title")).

Definition eventOpacity (p : EventBlockProps) : Qc :=
  if truthy (of_string (selectedEventId p)) then Q2Qc (1 # 2) else 1.

(** The component function: what one render returns. *)
Definition EventBlock (p : EventBlockProps) : state AnimatedView.t :=
  animated ← eventStyle p;
  ev ← get_event (event p);
  containerStyle ← style_of (PackedEvent.get ev "containerStyle");
  let color := PackedEvent.get ev "color" in
  inner ← match renderEventContent p with
          | Some f => mret (CustomContent f (event p) (timeIntervalHeight p))
          | None => _renderEventContent p
          end;
  mret {| AnimatedView.style :=
            [styles_eventBlock;
             <["opacity" := Number (eventOpacity p)]> ∅;
             containerStyle;
             animated];
          AnimatedView.child :=
            {| TouchableOpacity.disabled := truthy (of_string (selectedEventId p));
               TouchableOpacity.delayLongPress := num 300;
               TouchableOpacity.onPress := _onPress p;
               TouchableOpacity.onLongPress := _onLongPress p;
               TouchableOpacity.backgroundColor :=
                 if truthy color then color else VString EVENT_DEFAULT_COLOR;
               TouchableOpacity.activeOpacity := Q2Qc (3 # 5);
               TouchableOpacity.children := inner |} |}.

(** ** What React Native does with the tree

    The component relies on two documented rules of the framework, which are
    not code of this repository. *)

(** In a style array the last entry that sets a property wins. *)
Definition flatten (styles : list (gmap string StyleValue)) : gmap string StyleValue :=
  foldl (λ acc s, s ∪ acc) ∅ styles.

Definition rendered (v : AnimatedView.t) (property : string) : option StyleValue :=
  flatten (AnimatedView.style v) !! property.

(** A disabled touchable reacts to no interaction; an enabled one runs the
    handler of the gesture. *)
Definition press (v : AnimatedView.t) : state (list call) :=
  if TouchableOpacity.disabled (AnimatedView.child v) then mret []
  else TouchableOpacity.onPress (AnimatedView.child v).

Definition longPress (v : AnimatedView.t) : state (list call) :=
  if TouchableOpacity.disabled (AnimatedView.child v) then mret []
  else TouchableOpacity.onLongPress (AnimatedView.child v).

(** ** Running the callbacks of the parent *)

(** What each callback reference does when it is called with an object. *)
Definition callbacks := fn_ref → loc → world → world.

Definition run_calls (env : callbacks) (cs : list call) (w : world) : world :=
  foldl (λ w c, match c with Call f arg => env f arg w end) w cs.

(** A gesture from start to end: the handler, then the callbacks it invoked. *)
Definition dispatch (env : callbacks) (handler : state (list call)) (w : world) : world :=
  let '(cs, w') := handler w in run_calls env cs w'.

(** ** Sample inputs *)

(** A two-hour event at 9:00 in a 100 wide column slot, with a title. *)
Definition morning_event : PackedEvent.t :=
  {| PackedEvent.startHour := num 9;
     PackedEvent.duration := num 2;
     PackedEvent.left := num 10;
     PackedEvent.width := num 100;
     PackedEvent.rest :=
       <["id" := VString "e1"]> (<["title" := VString "Stand-up"]> ∅) |}.

(** The same event with a container style of its own, kept at location 5. *)
Definition styled_event : PackedEvent.t :=
  {| PackedEvent.startHour := num 9;
     PackedEvent.duration := num 2;
     PackedEvent.left := num 10;
     PackedEvent.width := num 100;
     PackedEvent.rest :=
       <["id" := VString "e1"]> (<["containerStyle" := VObject 5%nat]> ∅) |}.

(** A two-minute event: 1/30 of an hour. *)
Definition brief_event : PackedEvent.t :=
  {| PackedEvent.startHour := num 9;
     PackedEvent.duration := Q2Qc (1 # 30);
     PackedEvent.left := num 10;
     PackedEvent.width := num 100;
     PackedEvent.rest := <["id" := VString "e2"]> ∅ |}.

Definition plain_theme : ThemeProperties :=
  {| minimumEventHeight := None; allowFontScaling := None; eventTitle := VUndefined |}.

(** One event object at location 0, an hour 60 high, the container style
    [{ opacity: 1 }] at location 5. *)
Definition sample_world (ev : PackedEvent.t) (pinch : bool) : world :=
  {| events := λ _, ev;
     next := 1%nat;
     objects := λ l, if decide (l = 5%nat) then <["opacity" := VNumber 1]> ∅ else ∅;
     themes := λ _, plain_theme;
     numbers := λ _, num 60;
     booleans := λ _, pinch |}.

(** The same world under a theme that asks for events at least 20 high. *)
Definition tall_theme_world (ev : PackedEvent.t) (pinch : bool) : world :=
  {| events := events (sample_world ev pinch);
     next := next (sample_world ev pinch);
     objects := objects (sample_world ev pinch);
     themes := λ _, {| minimumEventHeight := Some (num 20);
                       allowFontScaling := None;
                       eventTitle := VUndefined |};
     numbers := numbers (sample_world ev pinch);
     booleans := booleans (sample_world ev pinch) |}.

Definition sample_props (selected : option string) : EventBlockProps :=
  {| event := 0%nat;
     dayIndex := num 2;
     columnWidth := num 120;
     onPressEvent := Some 1%nat;
     onLongPressEvent := Some 2%nat;
     timeIntervalHeight := 1%nat;
     renderEventContent := None;
     selectedEventId := selected;
     theme := 0%nat;
     eventAnimatedDuration := Some (num 250);
     isPinchActive := 2%nat;
     heightByTimeInterval := 3%nat |}.

(** Props of a parent that listens to no press. *)
Definition silent_props : EventBlockProps :=
  {| event := 0%nat;
     dayIndex := num 2;
     columnWidth := num 120;
     onPressEvent := None;
     onLongPressEvent := None;
     timeIntervalHeight := 1%nat;
     renderEventContent := None;
     selectedEventId := None;
     theme := 0%nat;
     eventAnimatedDuration := None;
     isPinchActive := 2%nat;
     heightByTimeInterval := 3%nat |}.

(** A parent whose callbacks overwrite the object they are given. *)
Definition overwriting : callbacks := λ _ arg w,
  {| events := <[arg := brief_event]> (events w);
     next := next w;
     objects := objects w;
     themes := themes w;
     numbers := numbers w;
     booleans := booleans w |}.

(** ** Vocabulary of the statements *)

(** The properties of the rectangle: position and size, and corner rounding. *)
Definition position_and_size : list string := ["top"; "height"; "left"; "width"].
Definition corner_radii : list string :=
  ["borderTopLeftRadius"; "borderTopRightRadius";
   "borderBottomLeftRadius"; "borderBottomRightRadius"].

(** [v] is a transition lasting [d]. *)
Definition is_transition (d : option Qc) (v : option StyleValue) : bool :=
  match v with
  | Some (withTiming _ d') => bool_decide (d' = d)
  | _ => false
  end.

(** [v] is a number given as it is. *)
Definition is_immediate (v : option StyleValue) : bool :=
  match v with
  | Some (Immediate (VNumber _)) => true
  | _ => false
  end.

(** Linear arithmetic on [Qc], carried out on the underlying [Q]. *)
Ltac qc_arith :=
  unfold Qclt, Qcle in *;
  repeat match goal with
  | |- @eq Qc _ _ => apply Qc_is_canon
  | H : @eq Qc _ _ |- _ => apply (f_equal this) in H
  | H : ¬ @eq Qc _ _ |- _ =>
      let E := fresh in
      assert (E := λ e, H (Qc_is_canon _ _ e)); clear H
  end;
  unfold num, Qcminus, Qcplus, Qcmult, Qcopp, Q2Qc, Qc_of_Z in *;
  cbn [this] in *;
  rewrite ?Qred_correct in *;
  lra.

(** Unfolds the plumbing of [state]. *)
Ltac run_state :=
  cbv [mbind state_bind mret state_ret get_event get_object get_theme
       get_number get_boolean new_event];
  cbn [fst snd].

(** ** Further sample inputs *)

(** An event of the next day: it starts at 25:00. *)
Definition late_event : PackedEvent.t :=
  {| PackedEvent.startHour := num 25;
     PackedEvent.duration := 1;
     PackedEvent.left := 0;
     PackedEvent.width := num 100;
     PackedEvent.rest := <["id" := VString "e3"]> ∅ |}.

(** An event that began two hours before the day and lasts five. *)
Definition overnight_event : PackedEvent.t :=
  {| PackedEvent.startHour := - 2;
     PackedEvent.duration := num 5;
     PackedEvent.left := 0;
     PackedEvent.width := num 100;
     PackedEvent.rest := <["id" := VString "e4"]> (<["color" := VString EmptyString]> ∅) |}.

(** Props with a renderer of the parent for the content. *)
Definition custom_props : EventBlockProps :=
  {| event := 0%nat;
     dayIndex := num 2;
     columnWidth := num 120;
     onPressEvent := Some 1%nat;
     onLongPressEvent := Some 2%nat;
     timeIntervalHeight := 1%nat;
     renderEventContent := Some 3%nat;
     selectedEventId := None;
     theme := 0%nat;
     eventAnimatedDuration := None;
     isPinchActive := 2%nat;
     heightByTimeInterval := 3%nat |}.

(** The sample world zoomed in: an hour is 90 high. *)
Definition zoomed_world (ev : PackedEvent.t) (pinch : bool) : world :=
  {| events := events (sample_world ev pinch);
     next := next (sample_world ev pinch);
     objects := objects (sample_world ev pinch);
     themes := themes (sample_world ev pinch);
     numbers := λ _, num 90;
     booleans := booleans (sample_world ev pinch) |}.

(** [silent_props] one day further. *)
Definition following_day_props : EventBlockProps :=
  {| event := 0%nat;
     dayIndex := num 3;
     columnWidth := num 120;
     onPressEvent := None;
     onLongPressEvent := None;
     timeIntervalHeight := 1%nat;
     renderEventContent := None;
     selectedEventId := None;
     theme := 0%nat;
     eventAnimatedDuration := None;
     isPinchActive := 2%nat;
     heightByTimeInterval := 3%nat |}.

(** [silent_props] for the event object at location 1. *)
Definition parameter_props : EventBlockProps :=
  {| event := 1%nat;
     dayIndex := num 2;
     columnWidth := num 120;
     onPressEvent := None;
     onLongPressEvent := None;
     timeIntervalHeight := 1%nat;
     renderEventContent := None;
     selectedEventId := None;
     theme := 0%nat;
     eventAnimatedDuration := None;
     isPinchActive := 2%nat;
     heightByTimeInterval := 3%nat |}.

(** Arithmetic on [Qc] carried out on [Q], with the literals evaluated:
    [qc_lin] for linear goals, [qc_nra] for goals with products of unknowns. *)
Ltac qc_to_Q :=
  unfold Qclt, Qcle in *;
  repeat match goal with
  | |- @eq Qc _ _ => apply Qc_is_canon
  | H : @eq Qc _ _ |- _ => apply (f_equal this) in H
  end;
  unfold num, Qcminus, Qcplus, Qcmult, Qcopp, Q2Qc, Qc_of_Z in *;
  cbn [this] in *;
  rewrite ?Qred_correct in *;
  unfold inject_Z in *.

Ltac qc_lin := qc_to_Q; lra.
Ltac qc_nra := qc_to_Q; nra.

(** * Properties *)

(** ** Arithmetic *)

Lemma Math_max_cases (a b : Qc) :
  (a ≤ b ∧ Math_max a b = b) ∨ (b < a ∧ Math_max a b = a).
Proof.
  unfold Math_max. case_decide; [left | right]; split; try done.
  by apply Qclt_nge.
Qed.

Lemma Math_min_cases (a b : Qc) :
  (a ≤ b ∧ Math_min a b = a) ∨ (b < a ∧ Math_min a b = b).
Proof.
  unfold Math_min. case_decide; [left | right]; split; try done.
  by apply Qclt_nge.
Qed.

Lemma Math_max_ge_l (a b : Qc) : a ≤ Math_max a b.
Proof. destruct (Math_max_cases a b) as [[? ->] | [? ->]]; qc_arith. Qed.

(** The clamped start: [startHour + max(-startHour, 0)] is [max(startHour, 0)]. *)
Lemma clamp_start (s : Qc) : s + Math_max (s * -1) 0 = Math_max s 0.
Proof.
  destruct (Math_max_cases (s * -1) 0) as [[? ->] | [? ->]];
    destruct (Math_max_cases s 0) as [[? ->] | [? ->]]; qc_arith.
Qed.

Lemma previous_day_hours (s : Qc) : Math_max (s * -1) 0 = Math_max (- s) 0.
Proof. f_equal. qc_arith. Qed.

Lemma has_previous_day (s : Qc) : 0 < Math_max (s * -1) 0 ↔ s < 0.
Proof. destruct (Math_max_cases (s * -1) 0) as [[? ->] | [? ->]]; split; qc_arith. Qed.

Lemma has_next_day (s d : Qc) : 0 < Math_max (s + d - num 24) 0 ↔ num 24 < s + d.
Proof.
  destruct (Math_max_cases (s + d - num 24) 0) as [[? ->] | [? ->]]; split; qc_arith.
Qed.

(** The in-day part of [[s, s + d]] has length [min(s + d, 24) - max(s, 0)]. *)
Lemma in_day_length (s d : Qc) :
  d - Math_max (- s) 0 - Math_max (s + d - num 24) 0
  = Math_min (s + d) (num 24) - Math_max s 0.
Proof.
  destruct (Math_max_cases (- s) 0) as [[? ->] | [? ->]];
    destruct (Math_max_cases (s + d - num 24) 0) as [[? ->] | [? ->]];
    destruct (Math_max_cases s 0) as [[? ->] | [? ->]];
    destruct (Math_min_cases (s + d) (num 24)) as [[? ->] | [? ->]]; qc_arith.
Qed.

(** ** The worklet and the rendered tree *)

(** The worklet only reads. *)
Lemma eventStyle_world (p : EventBlockProps) (w : world) : snd (eventStyle p w) = w.
Proof.
  unfold eventStyle. run_state. by destruct (booleans w (isPinchActive p)).
Qed.

(** The worklet never sets an opacity. *)
Lemma eventStyle_no_opacity (p : EventBlockProps) (w : world) :
  fst (eventStyle p w) !! "opacity" = None.
Proof.
  unfold eventStyle. run_state.
  by destruct (booleans w (isPinchActive p)); cbn [fst]; simplify_map_eq.
Qed.

(** Top and height of the style, in both branches. *)
Lemma eventStyle_top_height (p : EventBlockProps) (w : world) :
  let ev := events w (event p) in
  let s := PackedEvent.startHour ev in
  let d := PackedEvent.duration ev in
  let h := numbers w (heightByTimeInterval p) in
  let st := fst (eventStyle p w) in
  let unclamped := (d - Math_max (- s) 0 - Math_max (s + d - num 24) 0) * h - 2 in
  st !! "top" ≫= target = Some (Math_max s 0 * h + 1) ∧
  st !! "height" ≫= target =
    Some (match minimumEventHeight (themes w (theme p)) with
          | Some m => if bool_decide (m ≠ 0) then Math_max m unclamped else unclamped
          | None => unclamped
          end).
Proof.
  intros ev s d h st unclamped. subst st. unfold eventStyle. run_state.
  fold ev. fold s. fold d. fold h.
  rewrite clamp_start, previous_day_hours. fold unclamped.
  by destruct (booleans w (isPinchActive p)); cbn [fst]; simplify_map_eq.
Qed.

Lemma style_of_world (v : jsval) (w : world) : snd (style_of v w) = w.
Proof. by destruct v. Qed.

(** Rendering reads the world and leaves it as it is. *)
Lemma EventBlock_world (p : EventBlockProps) (w : world) : snd (EventBlock p w) = w.
Proof.
  unfold EventBlock, _renderEventContent. run_state.
  pose proof (eventStyle_world p w) as Hst.
  destruct (eventStyle p w) as [st w1]. cbn [snd] in Hst. subst w1.
  pose proof (style_of_world (PackedEvent.get (events w (event p)) "containerStyle") w)
    as Hcs.
  destruct (style_of _ w) as [cs w2]. cbn [snd] in Hcs. subst w2.
  destruct (renderEventContent p); [done |].
  pose proof (style_of_world (eventTitle (themes w (theme p))) w) as Hts.
  destruct (style_of _ w) as [ts w3]. cbn [snd] in Hts. by subst w3.
Qed.

(** The animated style is the last entry of the style array: what it sets is
    what is rendered. *)
Lemma rendered_animated (p : EventBlockProps) (w : world) (k : string) (v : StyleValue) :
  fst (eventStyle p w) !! k = Some v →
  rendered (fst (EventBlock p w)) k = Some v.
Proof.
  intros Hk. unfold rendered, EventBlock, _renderEventContent. run_state.
  pose proof (eventStyle_world p w) as Hst.
  destruct (eventStyle p w) as [st w1]. cbn [fst snd] in *. subst w1.
  pose proof (style_of_world (PackedEvent.get (events w (event p)) "containerStyle") w)
    as Hcs.
  destruct (style_of _ w) as [cs w2]. cbn [snd] in Hcs. subst w2.
  destruct (renderEventContent p).
  - cbn. by apply lookup_union_Some_l.
  - destruct (style_of _ w) as [ts w3]. cbn. by apply lookup_union_Some_l.
Qed.

(** The opacity of the block: the container style of the event comes after the
    opacity of the component in the style array, and the animated style sets
    none. *)
Lemma rendered_opacity (p : EventBlockProps) (w : world) :
  let containerStyle :=
    fst (style_of (PackedEvent.get (events w (event p)) "containerStyle") w) in
  rendered (fst (EventBlock p w)) "opacity" =
    match containerStyle !! "opacity" with
    | Some o => Some o
    | None => Some (Number (eventOpacity p))
    end.
Proof.
  unfold rendered, EventBlock, _renderEventContent. run_state.
  pose proof (eventStyle_world p w) as Hst.
  pose proof (eventStyle_no_opacity p w) as Hno.
  destruct (eventStyle p w) as [st w1]. cbn [fst snd] in *. subst w1.
  pose proof (style_of_world (PackedEvent.get (events w (event p)) "containerStyle") w)
    as Hcs.
  destruct (style_of _ w) as [cs w2]. cbn [fst snd] in *. subst w2.
  assert (flatten [styles_eventBlock; <["opacity" := Number (eventOpacity p)]> ∅; cs; st]
            !! "opacity"
          = match cs !! "opacity" with
            | Some o => Some o
            | None => Some (Number (eventOpacity p))
            end) as Hflat.
  { cbn. rewrite lookup_union_r by done.
    destruct (cs !! "opacity") as [o |] eqn:Hcs.
    - by apply lookup_union_Some_l.
    - rewrite lookup_union_r by done. by simplify_map_eq. }
  destruct (renderEventContent p); [done |].
  by destruct (style_of _ w) as [ts w3].
Qed.

Lemma EventBlock_child (p : EventBlockProps) (w : world) :
  let t := AnimatedView.child (fst (EventBlock p w)) in
  TouchableOpacity.disabled t = truthy (of_string (selectedEventId p)) ∧
  TouchableOpacity.onPress t = _onPress p ∧
  TouchableOpacity.onLongPress t = _onLongPress p.
Proof.
  unfold EventBlock, _renderEventContent. run_state.
  destruct (eventStyle p w) as [st w1]. destruct (style_of _ w1) as [cs w2].
  destruct (renderEventContent p); [done |].
  by destruct (style_of _ w2) as [ts w3].
Qed.

(** ** The press handlers *)

(** Both handlers allocate the same parameter object at the first free
    location and invoke their callback, if any, on it. *)
Lemma _onPress_eq (p : EventBlockProps) (w : world) :
  let ev := events w (event p) in
  let h := numbers w (heightByTimeInterval p) in
  _onPress p w =
    (optional_call (onPressEvent p) (next w),
     snd (new_event (spread_event ev (PackedEvent.startHour ev * h)
                       (PackedEvent.duration ev * h)
                       (columnWidth p * dayIndex p)) w)).
Proof. reflexivity. Qed.

Lemma _onLongPress_eq (p : EventBlockProps) (w : world) :
  let ev := events w (event p) in
  let h := numbers w (heightByTimeInterval p) in
  _onLongPress p w =
    (optional_call (onLongPressEvent p) (next w),
     snd (new_event (spread_event ev (PackedEvent.startHour ev * h)
                       (PackedEvent.duration ev * h)
                       (columnWidth p * dayIndex p)) w)).
Proof. reflexivity. Qed.

Lemma spread_event_lookup (ev : PackedEvent.t) (t h l : Qc) :
  let params := PackedEvent.to_object (spread_event ev t h l) in
  params !! "top" = Some (VNumber t) ∧
  params !! "height" = Some (VNumber h) ∧
  params !! "leftByIndex" = Some (VNumber l) ∧
  ∀ name : string, name ∉ ["top"; "height"; "leftByIndex"] →
    params !! name = PackedEvent.to_object ev !! name.
Proof.
  unfold PackedEvent.to_object, spread_event. cbn.
  split_and!; try by simplify_map_eq.
  intros name Hname. rewrite !not_elem_of_cons in Hname.
  destruct Hname as (? & ? & ? & _).
  rewrite !lookup_insert. repeat case_decide; try done; congruence.
Qed.

(** * The claims *)

(** C1: a press and a long press hand their callback one and the same new
    object: the properties of the event, with [top] set to
    [event.startHour * heightByTimeInterval.value], [height] to
    [event.duration * heightByTimeInterval.value] and [leftByIndex] to
    [columnWidth * dayIndex]; every other property is the event's. *)
Theorem press_parameter (p : EventBlockProps) (w : world) :
  let ev := events w (event p) in
  let h := numbers w (heightByTimeInterval p) in
  ∃ (l : loc) (w' : world),
    snd (_onPress p w) = w' ∧
    snd (_onLongPress p w) = w' ∧
    (∀ f, onPressEvent p = Some f → fst (_onPress p w) = [Call f l]) ∧
    (∀ g, onLongPressEvent p = Some g → fst (_onLongPress p w) = [Call g l]) ∧
    let params := PackedEvent.to_object (events w' l) in
    params !! "top" = Some (VNumber (PackedEvent.startHour ev * h)) ∧
    params !! "height" = Some (VNumber (PackedEvent.duration ev * h)) ∧
    params !! "leftByIndex" = Some (VNumber (columnWidth p * dayIndex p)) ∧
    ∀ name : string, name ∉ ["top"; "height"; "leftByIndex"] →
      params !! name = PackedEvent.to_object ev !! name.
Proof.
  intros ev h. exists (next w). eexists. split; [reflexivity |].
  rewrite _onPress_eq, _onLongPress_eq. cbn [fst snd]. split; [reflexivity |].
  split; [by intros f -> |]. split; [by intros g -> |].
  unfold new_event. cbn [fst snd events]. rewrite fn_lookup_insert.
  apply spread_event_lookup.
Qed.

Lemma press_parameter_witness :
  ∃ w' : world,
    _onPress (sample_props None) (sample_world morning_event false) = ([Call 1%nat 1%nat], w') ∧
    _onLongPress (sample_props None) (sample_world morning_event false) = ([Call 2%nat 1%nat], w') ∧
    PackedEvent.to_object (events w' 1%nat) !! "title" = Some (VString "Stand-up") ∧
    PackedEvent.to_object (events w' 1%nat) !! "top" = Some (VNumber (num 9 * num 60)).
Proof.
  destruct (press_parameter (sample_props None) (sample_world morning_event false))
    as (l & w' & Hpress & Hlong & Hf & Hg & Htop & _ & _ & Hrest).
  specialize (Hf 1%nat eq_refl). specialize (Hg 2%nat eq_refl).
  assert (l = 1%nat) as -> by (rewrite _onPress_eq in Hf; by injection Hf).
  exists w'. split_and!.
  - rewrite <- Hpress. reflexivity.
  - rewrite <- Hlong. reflexivity.
  - rewrite (Hrest "title"); [reflexivity |].
    rewrite !not_elem_of_cons. split_and!; [done | done | done | apply not_elem_of_nil].
  - exact Htop.
Defined.

(** C2, as amended: without a pinch, top, height, left and width are
    transitions lasting [eventAnimatedDuration] and the four corner radii are
    given as they are; during a pinch, top, height, left and width are given
    as they are and no corner radius is set. *)
Theorem geometry_animated_unless_pinching (p : EventBlockProps) (w : world) :
  let st := fst (eventStyle p w) in
  if booleans w (isPinchActive p) then
    Forall (λ k, is_immediate (st !! k)) position_and_size ∧
    Forall (λ k, st !! k = None) corner_radii
  else
    Forall (λ k, is_transition (eventAnimatedDuration p) (st !! k)) position_and_size ∧
    Forall (λ k, is_immediate (st !! k)) corner_radii.
Proof.
  unfold eventStyle, position_and_size, corner_radii.
  run_state. destruct (booleans w (isPinchActive p)); cbn [fst];
    (split; repeat apply Forall_cons_2; try apply Forall_nil_2;
     simplify_map_eq; cbn; by rewrite ?bool_decide_eq_true_2).
Qed.

(** C2 as the specification words it: every property of the geometry is a
    transition lasting [eventAnimatedDuration].  It fails for the top during a
    pinch, and for a corner radius without one. *)
Lemma geometry_always_animated_fails :
  ¬ Forall (λ k, is_transition (eventAnimatedDuration (sample_props None))
                   (fst (eventStyle (sample_props None)
                           (sample_world morning_event true)) !! k))
      (position_and_size ++ corner_radii) ∧
  ¬ Forall (λ k, is_transition (eventAnimatedDuration (sample_props None))
                   (fst (eventStyle (sample_props None)
                           (sample_world morning_event false)) !! k))
      (position_and_size ++ corner_radii).
Proof.
  split; intros H.
  - apply Forall_cons_1 in H as [H _]. revert H.
    unfold eventStyle. run_state. by simplify_map_eq.
  - apply Forall_app in H as [_ H].
    apply Forall_cons_1 in H as [H _]. revert H.
    unfold eventStyle. run_state. by simplify_map_eq.
Qed.

(** C3: the rectangle is placed at [event.left + columnWidth * dayIndex] and
    is [event.width] wide, whether a pinch is active (the values are given as
    they are) or not (they are the targets of the transitions); being set by
    the last entry of the style array, these are the values rendered. *)
Theorem horizontal_position_and_width (p : EventBlockProps) (w : world) :
  let ev := events w (event p) in
  let st := fst (eventStyle p w) in
  let x := PackedEvent.left ev + columnWidth p * dayIndex p in
  st !! "left" =
    Some (if booleans w (isPinchActive p) then Number x
          else withTiming x (eventAnimatedDuration p)) ∧
  st !! "width" =
    Some (if booleans w (isPinchActive p) then Number (PackedEvent.width ev)
          else withTiming (PackedEvent.width ev) (eventAnimatedDuration p)) ∧
  st !! "left" ≫= target = Some x ∧
  st !! "width" ≫= target = Some (PackedEvent.width ev) ∧
  rendered (fst (EventBlock p w)) "left" = st !! "left" ∧
  rendered (fst (EventBlock p w)) "width" = st !! "width".
Proof.
  intros ev st x.
  assert (st !! "left" =
            Some (if booleans w (isPinchActive p) then Number x
                  else withTiming x (eventAnimatedDuration p)) ∧
          st !! "width" =
            Some (if booleans w (isPinchActive p) then Number (PackedEvent.width ev)
                  else withTiming (PackedEvent.width ev) (eventAnimatedDuration p)))
    as [Hleft Hwidth].
  { subst st. unfold eventStyle. run_state.
    by destruct (booleans w (isPinchActive p)); cbn [fst]; simplify_map_eq. }
  split_and!; try done.
  - rewrite Hleft. by destruct (booleans w (isPinchActive p)).
  - rewrite Hwidth. by destruct (booleans w (isPinchActive p)).
  - rewrite Hleft. by apply rendered_animated.
  - rewrite Hwidth. by apply rendered_animated.
Qed.

(** C4: without a pinch, the top corners are square when the event starts
    before the day ([startHour < 0]) and rounded by 4 otherwise; the bottom
    corners are square when it ends after the day
    ([startHour + duration > 24]) and rounded by 4 otherwise. *)
Theorem corner_rounding (p : EventBlockProps) (w : world) :
  booleans w (isPinchActive p) = false →
  let ev := events w (event p) in
  let s := PackedEvent.startHour ev in
  let d := PackedEvent.duration ev in
  let st := fst (eventStyle p w) in
  let top_radius := if bool_decide (s < 0) then 0 else num 4 in
  let bottom_radius := if bool_decide (num 24 < s + d) then 0 else num 4 in
  st !! "borderTopLeftRadius" = Some (Number top_radius) ∧
  st !! "borderTopRightRadius" = Some (Number top_radius) ∧
  st !! "borderBottomLeftRadius" = Some (Number bottom_radius) ∧
  st !! "borderBottomRightRadius" = Some (Number bottom_radius).
Proof.
  intros Hpinch ev s d st top_radius bottom_radius.
  subst st top_radius bottom_radius. unfold eventStyle. run_state.
  rewrite Hpinch. fold ev. fold s. fold d. cbn [fst].
  rewrite (bool_decide_ext _ _ (has_previous_day s)).
  rewrite (bool_decide_ext _ _ (has_next_day s d)).
  by simplify_map_eq.
Qed.

Lemma corner_rounding_witness :
  booleans (sample_world morning_event false) (isPinchActive (sample_props None)) = false ∧
  fst (eventStyle (sample_props None) (sample_world morning_event false))
    !! "borderTopLeftRadius" = Some (Number (num 4)).
Proof.
  split; [reflexivity |].
  apply (corner_rounding (sample_props None) (sample_world morning_event false)).
  reflexivity.
Defined.

(** C5: an undefined callback is the only special case and it is skipped:
    the handler then invokes nothing, and the gesture ends in the world the
    handler left; a defined callback is invoked exactly once, on the new
    parameter object.  The handlers are total: no input makes them fail. *)
Theorem optional_callbacks (p : EventBlockProps) (w : world) (env : callbacks) :
  (onPressEvent p = None →
     fst (_onPress p w) = [] ∧
     dispatch env (_onPress p) w = snd (_onPress p w)) ∧
  (onLongPressEvent p = None →
     fst (_onLongPress p w) = [] ∧
     dispatch env (_onLongPress p) w = snd (_onLongPress p w)) ∧
  (∀ f, onPressEvent p = Some f →
     fst (_onPress p w) = [Call f (next w)] ∧
     dispatch env (_onPress p) w = env f (next w) (snd (_onPress p w))) ∧
  (∀ g, onLongPressEvent p = Some g →
     fst (_onLongPress p w) = [Call g (next w)] ∧
     dispatch env (_onLongPress p) w = env g (next w) (snd (_onLongPress p w))).
Proof.
  unfold dispatch. rewrite _onPress_eq, _onLongPress_eq. cbn [fst snd].
  split_and!; intros; simplify_eq/=; by rewrite ?H.
Qed.

Lemma optional_callbacks_witness :
  fst (_onPress silent_props (sample_world morning_event false)) = [] ∧
  fst (_onLongPress silent_props (sample_world morning_event false)) = [] ∧
  fst (_onPress (sample_props None) (sample_world morning_event false))
    = [Call 1%nat 1%nat] ∧
  fst (_onLongPress (sample_props None) (sample_world morning_event false))
    = [Call 2%nat 1%nat].
Proof.
  pose proof (optional_callbacks silent_props (sample_world morning_event false)
                overwriting) as (Hp & Hl & _ & _).
  pose proof (optional_callbacks (sample_props None) (sample_world morning_event false)
                overwriting) as (_ & _ & Hf & Hg).
  split_and!.
  - apply Hp. reflexivity.
  - apply Hl. reflexivity.
  - apply (Hf 1%nat). reflexivity.
  - apply (Hg 2%nat). reflexivity.
Defined.

(** C6: the component only reads what it is given.  Computing the style and
    rendering leave the world as it is.  A press handler leaves every object
    that exists, the theme and the shared values as they are: all it adds is
    the parameter object, at a location nothing else uses, so the event is
    another object.  Hence the event is as it was after the whole gesture,
    whenever the callback writes to no object but the one it is given. *)
Theorem inputs_are_only_read (p : EventBlockProps) (w : world) :
  snd (eventStyle p w) = w ∧
  snd (EventBlock p w) = w ∧
  Forall (λ handler : state (list call),
    let w' := snd (handler w) in
    (∀ l, (l < next w)%nat → events w' l = events w l) ∧
    objects w' = objects w ∧ themes w' = themes w ∧
    numbers w' = numbers w ∧ booleans w' = booleans w ∧
    Forall (λ c, match c with Call _ arg => arg = next w end) (fst (handler w)) ∧
    (next w < next w')%nat ∧
    ∀ env : callbacks,
      (event p < next w)%nat →
      (∀ f arg w0 l, l ≠ arg → events (env f arg w0) l = events w0 l) →
      events (dispatch env handler w) (event p) = events w (event p))
    [_onPress p; _onLongPress p].
Proof.
  split; [apply eventStyle_world |]. split; [apply EventBlock_world |].
  assert (Hnew : ∀ e l, (l < next w)%nat →
            events (snd (new_event e w)) l = events w l).
  { intros e l Hl. cbn. apply fn_lookup_insert_ne. lia. }
  repeat apply Forall_cons_2; [| | apply Forall_nil_2].
  - rewrite _onPress_eq. cbn [fst snd]. split_and!; try done.
    + apply Hnew.
    + destruct (onPressEvent p); cbn; by repeat constructor.
    + cbn. lia.
    + intros env Hev Henv. unfold dispatch. rewrite _onPress_eq.
      destruct (onPressEvent p) as [f |]; cbn [optional_call run_calls foldl].
      * rewrite Henv by lia. by apply Hnew.
      * by apply Hnew.
  - rewrite _onLongPress_eq. cbn [fst snd]. split_and!; try done.
    + apply Hnew.
    + destruct (onLongPressEvent p); cbn; by repeat constructor.
    + cbn. lia.
    + intros env Hev Henv. unfold dispatch. rewrite _onLongPress_eq.
      destruct (onLongPressEvent p) as [f |]; cbn [optional_call run_calls foldl].
      * rewrite Henv by lia. by apply Hnew.
      * by apply Hnew.
Qed.

Lemma inputs_are_only_read_witness :
  events (dispatch overwriting (_onPress (sample_props None))
            (sample_world morning_event false)) 0%nat
  = morning_event.
Proof.
  pose proof (inputs_are_only_read (sample_props None) (sample_world morning_event false))
    as (_ & _ & H).
  apply Forall_cons_1 in H as [(_ & _ & _ & _ & _ & _ & _ & H) _].
  apply (H overwriting).
  - cbn. lia.
  - intros f arg w0 l Hl. cbn. by apply fn_lookup_insert_ne.
Defined.

(** C7: the style shows the part of [[startHour, startHour + duration]] that
    lies in the day [[0, 24]]: its top is [max(startHour, 0)] hours down plus 1,
    and its height, before the minimum height of the theme is applied, is
    [duration - max(-startHour, 0) - max(startHour + duration - 24, 0)] hours
    minus 2, which is [min(startHour + duration, 24) - max(startHour, 0)]
    hours minus 2. *)
Theorem in_day_segment (p : EventBlockProps) (w : world) :
  let ev := events w (event p) in
  let s := PackedEvent.startHour ev in
  let d := PackedEvent.duration ev in
  let h := numbers w (heightByTimeInterval p) in
  let st := fst (eventStyle p w) in
  let unclamped := (d - Math_max (- s) 0 - Math_max (s + d - num 24) 0) * h - 2 in
  st !! "top" ≫= target = Some (Math_max s 0 * h + 1) ∧
  st !! "height" ≫= target =
    Some (match minimumEventHeight (themes w (theme p)) with
          | Some m => if bool_decide (m ≠ 0) then Math_max m unclamped else unclamped
          | None => unclamped
          end) ∧
  unclamped = (Math_min (s + d) (num 24) - Math_max s 0) * h - 2.
Proof.
  intros ev s d h st unclamped.
  destruct (eventStyle_top_height p w) as [Htop Hheight].
  split_and!; [exact Htop | exact Hheight |].
  unfold unclamped. by rewrite in_day_length.
Qed.

(** C8: a truthy [theme.minimumEventHeight] is a lower bound of the height;
    when it is undefined or 0 the height is the in-day duration times the
    height of an hour, minus 2, with no lower bound: for an event inside the
    day that is at most 2 high it is zero or negative. *)
Theorem minimum_event_height (p : EventBlockProps) (w : world) :
  let ev := events w (event p) in
  let s := PackedEvent.startHour ev in
  let d := PackedEvent.duration ev in
  let h := numbers w (heightByTimeInterval p) in
  let st := fst (eventStyle p w) in
  let minimum := minimumEventHeight (themes w (theme p)) in
  let unclamped := (d - Math_max (- s) 0 - Math_max (s + d - num 24) 0) * h - 2 in
  (∀ m, minimum = Some m → m ≠ 0 →
     ∃ x, st !! "height" ≫= target = Some x ∧ m ≤ x) ∧
  (minimum = None ∨ minimum = Some 0 →
     st !! "height" ≫= target = Some unclamped) ∧
  (minimum = None ∨ minimum = Some 0 → 0 ≤ s → s + d ≤ num 24 → d * h ≤ 2 →
     ∃ x, st !! "height" ≫= target = Some x ∧ x ≤ 0).
Proof.
  intros ev s d h st minimum unclamped.
  destruct (eventStyle_top_height p w) as [_ Hheight].
  fold ev s d h st minimum unclamped in Hheight.
  assert (Hfalsy : minimum = None ∨ minimum = Some 0 →
                   st !! "height" ≫= target = Some unclamped).
  { intros [Hm | Hm]; rewrite Hheight, Hm; [done |].
    rewrite bool_decide_false; [done | by intros []]. }
  split_and!.
  - intros m Hm Hne. rewrite Hheight, Hm, bool_decide_true by done.
    eexists; split; [done | apply Math_max_ge_l].
  - done.
  - intros Hm Hs Hend Hshort. exists unclamped. split; [by apply Hfalsy |].
    subst unclamped.
    destruct (Math_max_cases (- s) 0) as [[? ->] | [? ->]];
      destruct (Math_max_cases (s + d - num 24) 0) as [[? ->] | [? ->]];
      qc_arith.
Qed.

Lemma minimum_event_height_witness :
  (∃ x, fst (eventStyle (sample_props None) (tall_theme_world brief_event false))
          !! "height" ≫= target = Some x ∧ num 20 ≤ x) ∧
  (∃ x, fst (eventStyle (sample_props None) (sample_world brief_event false))
          !! "height" ≫= target = Some x ∧ x ≤ 0).
Proof.
  split.
  - apply (minimum_event_height (sample_props None) (tall_theme_world brief_event false)).
    + reflexivity.
    + vm_compute. discriminate.
  - apply (minimum_event_height (sample_props None) (sample_world brief_event false)).
    + left. reflexivity.
    + vm_compute. discriminate.
    + vm_compute. discriminate.
    + vm_compute. discriminate.
Defined.

(** The height of the two-minute event is exactly zero. *)
Example brief_event_height :
  fst (eventStyle (sample_props None) (sample_world brief_event false))
    !! "height" ≫= target = Some 0.
Proof.
  unfold eventStyle. run_state. simplify_map_eq.
  apply (f_equal Some), Qc_is_canon. reflexivity.
Qed.

(** A negative height: an event of no duration is -2 high. *)
Example empty_event_height :
  fst (eventStyle (sample_props None)
         (sample_world {| PackedEvent.startHour := num 9;
                          PackedEvent.duration := 0;
                          PackedEvent.left := 0;
                          PackedEvent.width := num 100;
                          PackedEvent.rest := ∅ |} false))
    !! "height" ≫= target = Some (- 2).
Proof.
  unfold eventStyle. run_state. simplify_map_eq.
  apply (f_equal Some), Qc_is_canon. reflexivity.
Qed.

(** C9, as amended: when [selectedEventId] is a non-empty string, whichever
    event it names, the opacity the component gives the block is 0.5, which is
    the opacity it is rendered at unless the container style of the event sets
    one, and the touchable is disabled: a press or a long press invokes
    nothing.  When [selectedEventId] is undefined or empty that opacity is 1
    and the touchable is enabled: the gestures run the handlers. *)
Theorem selection_dims_and_disables (p : EventBlockProps) (w : world) :
  let v := fst (EventBlock p w) in
  let containerStyle :=
    fst (style_of (PackedEvent.get (events w (event p)) "containerStyle") w) in
  (∀ id, selectedEventId p = Some id → id ≠ EmptyString →
     eventOpacity p = Q2Qc (1 # 2) ∧
     (containerStyle !! "opacity" = None →
        rendered v "opacity" = Some (Number (Q2Qc (1 # 2)))) ∧
     TouchableOpacity.disabled (AnimatedView.child v) = true ∧
     ∀ w0, press v w0 = ([], w0) ∧ longPress v w0 = ([], w0)) ∧
  (selectedEventId p = None ∨ selectedEventId p = Some EmptyString →
     eventOpacity p = 1 ∧
     (containerStyle !! "opacity" = None →
        rendered v "opacity" = Some (Number 1)) ∧
     TouchableOpacity.disabled (AnimatedView.child v) = false ∧
     press v = _onPress p ∧ longPress v = _onLongPress p).
Proof.
  intros v containerStyle.
  pose proof (rendered_opacity p w) as Hop. cbn zeta in Hop.
  fold v containerStyle in Hop.
  destruct (EventBlock_child p w) as (Hdis & Hpress & Hlong). fold v in Hdis, Hpress, Hlong.
  unfold press, longPress. rewrite Hdis, Hpress, Hlong.
  split.
  - intros id Hid Hne.
    assert (truthy (of_string (selectedEventId p)) = true) as Ht.
    { rewrite Hid. cbn. by apply bool_decide_true. }
    unfold eventOpacity in *. rewrite Ht in *. split_and!; try done.
    intros Hcs. by rewrite Hop, Hcs.
  - intros Hid.
    assert (truthy (of_string (selectedEventId p)) = false) as Ht.
    { by destruct Hid as [-> | ->]. }
    unfold eventOpacity in *. rewrite Ht in *. split_and!; try done.
    intros Hcs. by rewrite Hop, Hcs.
Qed.

Lemma selection_dims_and_disables_witness :
  (rendered (fst (EventBlock (sample_props (Some "e7")) (sample_world morning_event false)))
     "opacity" = Some (Number (Q2Qc (1 # 2))) ∧
   press (fst (EventBlock (sample_props (Some "e7")) (sample_world morning_event false)))
     (sample_world morning_event false) = ([], sample_world morning_event false)) ∧
  (rendered (fst (EventBlock (sample_props None) (sample_world morning_event false)))
     "opacity" = Some (Number 1) ∧
   press (fst (EventBlock (sample_props None) (sample_world morning_event false)))
   = _onPress (sample_props None)).
Proof.
  split.
  - destruct (selection_dims_and_disables (sample_props (Some "e7"))
                (sample_world morning_event false)) as [H _].
    destruct (H "e7" eq_refl) as (_ & Hop & _ & Hpress); [done |].
    split; [apply Hop; reflexivity | apply Hpress].
  - destruct (selection_dims_and_disables (sample_props None)
                (sample_world morning_event false)) as [_ H].
    destruct H as (_ & Hop & _ & Hpress & _); [by left |].
    split; [apply Hop; reflexivity | apply Hpress].
Defined.

(** C9 as the specification words it: with an event selected the block is
    rendered at opacity 0.5.  An event whose container style is
    [{ opacity: 1 }] is rendered at opacity 1. *)
Lemma selected_block_opacity_fails :
  truthy (of_string (selectedEventId (sample_props (Some "e7")))) = true ∧
  rendered (fst (EventBlock (sample_props (Some "e7")) (sample_world styled_event false)))
    "opacity" = Some (Number 1) ∧
  rendered (fst (EventBlock (sample_props (Some "e7")) (sample_world styled_event false)))
    "opacity" ≠ Some (Number (Q2Qc (1 # 2))).
Proof.
  assert (rendered (fst (EventBlock (sample_props (Some "e7"))
                           (sample_world styled_event false))) "opacity"
          = Some (Number 1)) as H.
  { rewrite rendered_opacity. reflexivity. }
  split; [reflexivity |]. split; [exact H |].
  rewrite H. intros [=].
Qed.

(** * Further properties of the component *)

(** ** Shared facts *)

Lemma eventStyle_dom (p : EventBlockProps) (w : world) :
  dom (fst (eventStyle p w)) =
    if booleans w (isPinchActive p) then list_to_set position_and_size
    else list_to_set (position_and_size ++ corner_radii).
Proof.
  unfold eventStyle. run_state.
  destruct (booleans w (isPinchActive p)); cbn [fst];
    rewrite !dom_insert_L, dom_empty_L; cbn; set_solver.
Qed.

Lemma eventStyle_left_width (p : EventBlockProps) (w : world) :
  let ev := events w (event p) in
  let st := fst (eventStyle p w) in
  st !! "left" ≫= target = Some (PackedEvent.left ev + columnWidth p * dayIndex p) ∧
  st !! "width" ≫= target = Some (PackedEvent.width ev).
Proof.
  unfold eventStyle. run_state.
  by destruct (booleans w (isPinchActive p)); cbn [fst]; simplify_map_eq.
Qed.

(** The height when the theme asks for no minimum. *)
Lemma eventStyle_height_unclamped (p : EventBlockProps) (w : world) :
  let ev := events w (event p) in
  let s := PackedEvent.startHour ev in
  let d := PackedEvent.duration ev in
  let h := numbers w (heightByTimeInterval p) in
  let minimum := minimumEventHeight (themes w (theme p)) in
  minimum = None ∨ minimum = Some 0 →
  fst (eventStyle p w) !! "height" ≫= target =
    Some ((d - Math_max (- s) 0 - Math_max (s + d - num 24) 0) * h - 2).
Proof.
  intros ev s d h minimum Hm.
  destruct (eventStyle_top_height p w) as [_ Hheight]. rewrite Hheight.
  fold minimum. destruct Hm as [-> | ->]; [done |].
  rewrite bool_decide_false; [done | by intros []].
Qed.

(** The height under a positive minimum of the theme. *)
Lemma eventStyle_height_minimum (p : EventBlockProps) (w : world) (m : Qc) :
  let ev := events w (event p) in
  let s := PackedEvent.startHour ev in
  let d := PackedEvent.duration ev in
  let h := numbers w (heightByTimeInterval p) in
  minimumEventHeight (themes w (theme p)) = Some m → 0 < m →
  fst (eventStyle p w) !! "height" ≫= target =
    Some (Math_max m ((d - Math_max (- s) 0 - Math_max (s + d - num 24) 0) * h - 2)).
Proof.
  intros ev s d h Hm Hpos.
  destruct (eventStyle_top_height p w) as [_ Hheight]. rewrite Hheight, Hm.
  rewrite bool_decide_true; [done |]. intros ->. by apply (Qclt_not_eq 0 0).
Qed.

(** The corner radii of the animated branch. *)
Lemma eventStyle_radii (p : EventBlockProps) (w : world) :
  booleans w (isPinchActive p) = false →
  let ev := events w (event p) in
  let s := PackedEvent.startHour ev in
  let d := PackedEvent.duration ev in
  let st := fst (eventStyle p w) in
  let top_radius := if bool_decide (s < 0) then 0 else num 4 in
  let bottom_radius := if bool_decide (num 24 < s + d) then 0 else num 4 in
  st !! "borderTopLeftRadius" = Some (Number top_radius) ∧
  st !! "borderTopRightRadius" = Some (Number top_radius) ∧
  st !! "borderBottomLeftRadius" = Some (Number bottom_radius) ∧
  st !! "borderBottomRightRadius" = Some (Number bottom_radius).
Proof.
  intros Hpinch ev s d st top_radius bottom_radius.
  subst st top_radius bottom_radius. unfold eventStyle. run_state.
  rewrite Hpinch. fold ev. fold s. fold d. cbn [fst].
  rewrite (bool_decide_ext _ _ (has_previous_day s)).
  rewrite (bool_decide_ext _ _ (has_next_day s d)).
  by simplify_map_eq.
Qed.


(** The touchable of the block. *)
Lemma EventBlock_touchable (p : EventBlockProps) (w : world) :
  let ev := events w (event p) in
  let t := AnimatedView.child (fst (EventBlock p w)) in
  let color := PackedEvent.get ev "color" in
  TouchableOpacity.backgroundColor t
    = (if truthy color then color else VString EVENT_DEFAULT_COLOR) ∧
  TouchableOpacity.children t
    = match renderEventContent p with
      | Some f => CustomContent f (event p) (timeIntervalHeight p)
      | None =>
          TitleText (allowFontScaling (themes w (theme p)))
            [styles_title; fst (style_of (eventTitle (themes w (theme p))) w)]
            (PackedEvent.get ev "title")
      end.
Proof.
  unfold EventBlock, _renderEventContent. run_state.
  pose proof (eventStyle_world p w) as Hst.
  destruct (eventStyle p w) as [st w1]. cbn [fst snd] in *. subst w1.
  pose proof (style_of_world (PackedEvent.get (events w (event p)) "containerStyle") w)
    as Hcs.
  destruct (style_of _ w) as [cs w2]. cbn [fst snd] in *. subst w2.
  destruct (renderEventContent p); [done |].
  pose proof (style_of_world (eventTitle (themes w (theme p))) w) as Hts.
  destruct (style_of _ w) as [ts w3]. cbn [fst snd] in *. by subst w3.
Qed.

(** ** The animated style *)

(** X1: the worklet sets top, height, left and width during a pinch, these and
    the four corner radii otherwise, and never any other property. *)
Theorem style_properties (p : EventBlockProps) (w : world) (k : string) :
  is_Some (fst (eventStyle p w) !! k) ↔
    if booleans w (isPinchActive p) then k ∈ position_and_size
    else k ∈ position_and_size ++ corner_radii.
Proof.
  rewrite <- elem_of_dom, eventStyle_dom.
  destruct (booleans w (isPinchActive p)); by rewrite elem_of_list_to_set.
Qed.

(** X2: where the rectangle goes does not depend on the pinch: two worlds that
    agree on the event, the theme and the height of an hour give the same top,
    height, left and width, as values or as targets of the transitions. *)
Theorem pinch_keeps_geometry (p : EventBlockProps) (w w' : world) :
  events w (event p) = events w' (event p) →
  themes w (theme p) = themes w' (theme p) →
  numbers w (heightByTimeInterval p) = numbers w' (heightByTimeInterval p) →
  Forall (λ k, fst (eventStyle p w) !! k ≫= target
               = fst (eventStyle p w') !! k ≫= target)
    position_and_size.
Proof.
  intros Hev Hth Hnum.
  destruct (eventStyle_top_height p w) as [Htop Hheight].
  destruct (eventStyle_top_height p w') as [Htop' Hheight'].
  destruct (eventStyle_left_width p w) as [Hleft Hwidth].
  destruct (eventStyle_left_width p w') as [Hleft' Hwidth'].
  cbn zeta in *.
  rewrite <- Hev in Htop', Hheight', Hleft', Hwidth'.
  rewrite <- Hnum in Htop', Hheight'. rewrite <- Hth in Hheight'.
  repeat apply Forall_cons_2; [| | | | apply Forall_nil_2]; cbn beta; congruence.
Qed.

Lemma pinch_keeps_geometry_witness :
  Forall (λ k, fst (eventStyle (sample_props None) (sample_world overnight_event true))
                 !! k ≫= target
               = fst (eventStyle (sample_props None) (sample_world overnight_event false))
                 !! k ≫= target)
    position_and_size.
Proof.
  apply (pinch_keeps_geometry (sample_props None)
           (sample_world overnight_event true) (sample_world overnight_event false));
    reflexivity.
Defined.



(** X4: for an event inside the day, [0 <= startHour] and
    [startHour + duration <= 24], nothing is clipped: the top is [startHour]
    hours plus 1, the height, when the theme asks for no minimum, [duration]
    hours minus 2, and without a pinch all four corners are rounded by 4. *)
Theorem event_inside_day (p : EventBlockProps) (w : world) :
  let ev := events w (event p) in
  let s := PackedEvent.startHour ev in
  let d := PackedEvent.duration ev in
  let h := numbers w (heightByTimeInterval p) in
  let st := fst (eventStyle p w) in
  let minimum := minimumEventHeight (themes w (theme p)) in
  0 ≤ s → s + d ≤ num 24 →
  st !! "top" ≫= target = Some (s * h + 1) ∧
  (minimum = None ∨ minimum = Some 0 → st !! "height" ≫= target = Some (d * h - 2)) ∧
  (booleans w (isPinchActive p) = false →
     Forall (λ k, st !! k = Some (Number (num 4))) corner_radii).
Proof.
  intros ev s d h st minimum Hs Hend.
  destruct (eventStyle_top_height p w) as [Htop _]. fold ev s d h st in Htop.
  split_and!.
  - rewrite Htop. f_equal.
    destruct (Math_max_cases s 0) as [[? ->] | [? ->]]; [| done].
    assert (s = 0) as -> by qc_arith. qc_arith.
  - intros Hm. subst st. rewrite (eventStyle_height_unclamped p w Hm).
    fold ev s d h. f_equal.
    destruct (Math_max_cases (- s) 0) as [[? ->] | [? ->]];
      destruct (Math_max_cases (s + d - num 24) 0) as [[? ->] | [? ->]]; qc_nra.
  - intros Hpinch.
    destruct (eventStyle_radii p w Hpinch) as (H1 & H2 & H3 & H4).
    fold ev s d st in H1, H2, H3, H4.
    rewrite bool_decide_false in H1, H2 by by apply Qcle_not_lt.
    rewrite bool_decide_false in H3, H4 by by apply Qcle_not_lt.
    by repeat apply Forall_cons_2; [| | | | apply Forall_nil_2].
Qed.

Lemma event_inside_day_witness :
  fst (eventStyle (sample_props None) (sample_world morning_event false))
    !! "top" ≫= target = Some (num 9 * num 60 + 1) ∧
  fst (eventStyle (sample_props None) (sample_world morning_event false))
    !! "height" ≫= target = Some (num 2 * num 60 - 2) ∧
  Forall (λ k, fst (eventStyle (sample_props None) (sample_world morning_event false))
                 !! k = Some (Number (num 4))) corner_radii.
Proof.
  destruct (event_inside_day (sample_props None) (sample_world morning_event false))
    as (Htop & Hheight & Hradii).
  - vm_compute. discriminate.
  - vm_compute. discriminate.
  - split_and!; [exact Htop | apply Hheight; by left | by apply Hradii].
Defined.

(** X5: an event that lies outside the day, at or after 24:00 or over by
    0:00, has nothing to show: with a non-negative height of an hour and no
    minimum height its height is at most -2.  A positive minimum height of the
    theme still gives it exactly that height, at the top of the day for an
    event of the day before, and below the end of the day for an event of the
    day after. *)
Theorem event_outside_day (p : EventBlockProps) (w : world) :
  let ev := events w (event p) in
  let s := PackedEvent.startHour ev in
  let d := PackedEvent.duration ev in
  let h := numbers w (heightByTimeInterval p) in
  let st := fst (eventStyle p w) in
  let minimum := minimumEventHeight (themes w (theme p)) in
  num 24 ≤ s ∨ s + d ≤ 0 → 0 ≤ d → 0 ≤ h →
  ∃ top height,
    st !! "top" ≫= target = Some top ∧
    st !! "height" ≫= target = Some height ∧
    (minimum = None ∨ minimum = Some 0 → height ≤ - 2) ∧
    (∀ m, minimum = Some m → 0 < m → height = m) ∧
    (s + d ≤ 0 → top = 1) ∧
    (num 24 ≤ s → num 24 * h + 1 ≤ top).
Proof.
  intros ev s d h st minimum Hout Hd Hh.
  destruct (eventStyle_top_height p w) as [Htop Hheight].
  fold ev s d h st minimum in Htop, Hheight.
  assert (Hraw : (d - Math_max (- s) 0 - Math_max (s + d - num 24) 0) * h - 2 ≤ - 2).
  { destruct (Math_max_cases (- s) 0) as [[? ->] | [? ->]];
      destruct (Math_max_cases (s + d - num 24) 0) as [[? ->] | [? ->]];
      destruct Hout; qc_nra. }
  eexists _, _. split; [exact Htop |]. split; [exact Hheight |].
  clear Htop Hheight. split_and!.
  - intros [-> | ->]; [done |].
    rewrite bool_decide_false; [done | by intros []].
  - intros m -> Hm. rewrite bool_decide_true.
    + destruct (Math_max_cases m
        ((d - Math_max (- s) 0 - Math_max (s + d - num 24) 0) * h - 2))
        as [[Hle ->] | [? ->]]; [| done].
      exfalso. pose proof (Qcle_trans _ _ _ Hle Hraw) as Hc.
      clear - Hc Hm. qc_lin.
    + intros ->. by apply (Qclt_not_eq 0 0).
  - intros Hbefore. destruct (Math_max_cases s 0) as [[? ->] | [Hpos ->]]; [ring |].
    exfalso. clear - Hbefore Hd Hpos. qc_lin.
  - intros Hafter. destruct (Math_max_cases s 0) as [[Hneg ->] | [? ->]].
    + exfalso. clear - Hafter Hneg. qc_lin.
    + apply Qcplus_le_mono_r, Qcmult_le_compat_r; done.
Qed.

Lemma event_outside_day_witness :
  ∃ top height,
    fst (eventStyle (sample_props None) (sample_world late_event false))
      !! "top" ≫= target = Some top ∧
    fst (eventStyle (sample_props None) (tall_theme_world late_event false))
      !! "height" ≫= target = Some height ∧
    height = num 20 ∧ num 24 * num 60 + 1 ≤ top.
Proof.
  destruct (event_outside_day (sample_props None) (tall_theme_world late_event false))
    as (top & height & Htop & Hheight & _ & Hmin & _ & Hafter).
  - left. vm_compute. discriminate.
  - vm_compute. discriminate.
  - vm_compute. discriminate.
  - exists top, height. split_and!; [exact Htop | exact Hheight | |].
    + apply Hmin; [reflexivity | reflexivity].
    + apply Hafter. vm_compute. discriminate.
Defined.

(** ** The handlers and the style together *)

(** X6: the geometry handed to the callbacks is not the geometry drawn.  The
    left of the rectangle is [event.left] plus the [leftByIndex] of the
    parameter.  For an event that starts inside the day the top drawn is the
    [top] of the parameter plus 1, and for one inside the day, without a
    minimum height, the height drawn is its [height] minus 2.  For an event
    that starts before the day the parameter keeps a negative [top] while the
    rectangle is drawn at 1. *)
Theorem callback_geometry_and_style (p : EventBlockProps) (w : world) :
  let ev := events w (event p) in
  let s := PackedEvent.startHour ev in
  let d := PackedEvent.duration ev in
  let h := numbers w (heightByTimeInterval p) in
  let st := fst (eventStyle p w) in
  let minimum := minimumEventHeight (themes w (theme p)) in
  let params := events (snd (_onPress p w)) (next w) in
  ∃ top height leftByIndex,
    PackedEvent.get params "top" = VNumber top ∧
    PackedEvent.get params "height" = VNumber height ∧
    PackedEvent.get params "leftByIndex" = VNumber leftByIndex ∧
    st !! "left" ≫= target = Some (PackedEvent.left ev + leftByIndex) ∧
    (0 ≤ s → st !! "top" ≫= target = Some (top + 1)) ∧
    (0 ≤ s → s + d ≤ num 24 → minimum = None ∨ minimum = Some 0 →
       st !! "height" ≫= target = Some (height - 2)) ∧
    (s < 0 → 0 < h → top < 0 ∧ st !! "top" ≫= target = Some 1).
Proof.
  intros ev s d h st minimum params.
  destruct (eventStyle_top_height p w) as [Htop _]. fold ev s d h st in Htop.
  destruct (eventStyle_left_width p w) as [Hleft _]. fold ev st in Hleft.
  exists (s * h), (d * h), (columnWidth p * dayIndex p).
  subst params. rewrite _onPress_eq. cbn [snd new_event events].
  rewrite fn_lookup_insert. unfold PackedEvent.get, spread_event. cbn [PackedEvent.rest].
  split_and!; try by simplify_map_eq.
  - intros Hs. rewrite Htop. f_equal.
    destruct (Math_max_cases s 0) as [[? ->] | [? ->]]; [| done].
    assert (s = 0) as -> by qc_arith. qc_arith.
  - intros Hs Hend Hm. subst st. rewrite (eventStyle_height_unclamped p w Hm).
    fold ev s d h. f_equal.
    destruct (Math_max_cases (- s) 0) as [[? ->] | [? ->]];
      destruct (Math_max_cases (s + d - num 24) 0) as [[? ->] | [? ->]]; qc_nra.
  - intros Hs Hh. split; [qc_nra |]. rewrite Htop. f_equal.
    destruct (Math_max_cases s 0) as [[? ->] | [? ->]]; [ring | qc_arith].
Qed.

Lemma callback_geometry_and_style_witness :
  ∃ top,
    PackedEvent.get (events (snd (_onPress (sample_props None)
                                    (sample_world overnight_event false))) 1%nat) "top"
      = VNumber top ∧
    top < 0 ∧
    fst (eventStyle (sample_props None) (sample_world overnight_event false))
      !! "top" ≫= target = Some 1.
Proof.
  destruct (callback_geometry_and_style (sample_props None)
              (sample_world overnight_event false))
    as (top & height & leftByIndex & Htop & _ & _ & _ & _ & _ & Hbefore).
  exists top. split; [exact Htop |]. apply Hbefore; vm_compute; reflexivity.
Defined.

(** ** The handlers in sequence *)

(** X7: every gesture builds a parameter object of its own.  After a press
    and then a long press there are two more objects, at consecutive
    locations; the second handler leaves the parameter of the first as it
    was, and every object that existed before is untouched.  When both
    gestures are on the same block, the two parameters have the same
    content. *)
Theorem consecutive_gestures (p q : EventBlockProps) (w : world) :
  let w1 := snd (_onPress p w) in
  let w2 := snd (_onLongPress q w1) in
  fst (_onPress p w) = optional_call (onPressEvent p) (next w) ∧
  fst (_onLongPress q w1) = optional_call (onLongPressEvent q) (S (next w)) ∧
  next w2 = S (S (next w)) ∧
  events w2 (next w) = events w1 (next w) ∧
  (∀ l, (l < next w)%nat → events w2 l = events w l) ∧
  (q = p → (event p < next w)%nat → events w2 (S (next w)) = events w1 (next w)).
Proof.
  intros w1 w2. subst w2 w1. rewrite _onPress_eq. cbn [fst snd].
  rewrite _onLongPress_eq. cbn [fst snd new_event events next numbers].
  split_and!; try done.
  - rewrite fn_lookup_insert_ne by lia. done.
  - intros l Hl. rewrite !fn_lookup_insert_ne by lia. done.
  - intros -> Hev. rewrite !fn_lookup_insert.
    rewrite (fn_lookup_insert_ne _ (next w) (event p)) by lia. done.
Qed.

Lemma consecutive_gestures_witness :
  events (snd (_onLongPress (sample_props None)
                 (snd (_onPress (sample_props None) (sample_world morning_event false)))))
    0%nat = morning_event ∧
  events (snd (_onLongPress (sample_props None)
                 (snd (_onPress (sample_props None) (sample_world morning_event false)))))
    2%nat
  = events (snd (_onPress (sample_props None) (sample_world morning_event false))) 1%nat.
Proof.
  destruct (consecutive_gestures (sample_props None) (sample_props None)
              (sample_world morning_event false)) as (_ & _ & _ & _ & Hold & Hsame).
  split.
  - apply (Hold 0%nat). cbn. lia.
  - apply Hsame; [reflexivity | cbn; lia].
Defined.

(** ** The rendered tree *)

(** X8: the touchable always has a background colour: the colour of the event
    when it is truthy, and white, [#FFFFFF], when the event has none or an
    empty one. *)
Theorem background_color (p : EventBlockProps) (w : world) :
  let color := PackedEvent.get (events w (event p)) "color" in
  let background :=
    TouchableOpacity.backgroundColor (AnimatedView.child (fst (EventBlock p w))) in
  truthy background = true ∧
  (truthy color = true → background = color) ∧
  (color = VUndefined ∨ color = VString EmptyString → background = VString "#FFFFFF").
Proof.
  intros color background.
  destruct (EventBlock_touchable p w) as [Hbg _]. fold color background in Hbg.
  rewrite Hbg. split_and!.
  - by destruct (truthy color) eqn:Hc.
  - by intros ->.
  - by intros [-> | ->].
Qed.

Lemma background_color_witness :
  TouchableOpacity.backgroundColor
    (AnimatedView.child (fst (EventBlock (sample_props None)
                                (sample_world overnight_event false))))
  = VString "#FFFFFF" ∧
  TouchableOpacity.backgroundColor
    (AnimatedView.child (fst (EventBlock (sample_props None)
                                (sample_world morning_event false))))
  = VString "#FFFFFF".
Proof.
  split.
  - apply (background_color (sample_props None) (sample_world overnight_event false)).
    right. reflexivity.
  - apply (background_color (sample_props None) (sample_world morning_event false)).
    left. reflexivity.
Defined.

(** X9: a renderer of the parent replaces the title and is handed the event
    object itself, not a copy, together with [timeIntervalHeight]; the press
    callbacks, in contrast, are handed another object than the event.
    Without a renderer the content is the title of the event, [undefined] if
    it has none, under [theme.allowFontScaling]. *)
Theorem content_of_the_block (p : EventBlockProps) (w : world) :
  let ev := events w (event p) in
  let content := TouchableOpacity.children (AnimatedView.child (fst (EventBlock p w))) in
  (∀ f, renderEventContent p = Some f →
     content = CustomContent f (event p) (timeIntervalHeight p)) ∧
  (renderEventContent p = None →
     ∃ style, content = TitleText (allowFontScaling (themes w (theme p))) style
                          (default VUndefined (PackedEvent.rest ev !! "title"))) ∧
  ((event p < next w)%nat →
     Forall (λ c, match c with Call _ arg => arg ≠ event p end)
       (fst (_onPress p w) ++ fst (_onLongPress p w))).
Proof.
  intros ev content.
  destruct (EventBlock_touchable p w) as [_ Hc]. fold ev content in Hc.
  split_and!.
  - intros f Hf. by rewrite Hc, Hf.
  - intros Hf. rewrite Hc, Hf. by eexists.
  - intros Hev. rewrite _onPress_eq, _onLongPress_eq. cbn [fst].
    apply Forall_app. split.
    + destruct (onPressEvent p); cbn; repeat constructor. lia.
    + destruct (onLongPressEvent p); cbn; repeat constructor. lia.
Qed.

Lemma content_of_the_block_witness :
  TouchableOpacity.children
    (AnimatedView.child (fst (EventBlock custom_props (sample_world morning_event false))))
  = CustomContent 3%nat 0%nat 1%nat ∧
  Forall (λ c, match c with Call _ arg => arg ≠ 0%nat end)
    (fst (_onPress custom_props (sample_world morning_event false))
     ++ fst (_onLongPress custom_props (sample_world morning_event false))).
Proof.
  destruct (content_of_the_block custom_props (sample_world morning_event false))
    as (Hcustom & _ & Hfresh).
  split.
  - apply Hcustom. reflexivity.
  - apply Hfresh. cbn. lia.
Defined.




(** ** Zoom, columns and parameters fed back *)

Lemma Math_max_mono_r (m x y : Qc) : x ≤ y → Math_max m x ≤ Math_max m y.
Proof.
  intros Hxy.
  destruct (Math_max_cases m x) as [[? ->] | [? ->]];
    destruct (Math_max_cases m y) as [[? ->] | [? ->]]; qc_lin.
Qed.

Lemma scaled_top_mono (s h h' : Qc) :
  h ≤ h' → Math_max s 0 * h + 1 ≤ Math_max s 0 * h' + 1.
Proof.
  intros. apply Qcplus_le_mono_r.
  rewrite (Qcmult_comm _ h), (Qcmult_comm _ h').
  apply Qcmult_le_compat_r; [done |].
  destruct (Math_max_cases s 0) as [[? ->] | [? ->]]; qc_lin.
Qed.

Lemma scaled_height_mono (s d h h' : Qc) :
  h ≤ h' → 0 ≤ d → 0 ≤ s + d → s ≤ num 24 →
  (d - Math_max (- s) 0 - Math_max (s + d - num 24) 0) * h - 2
  ≤ (d - Math_max (- s) 0 - Math_max (s + d - num 24) 0) * h' - 2.
Proof.
  intros. unfold Qcminus at 1 4. apply Qcplus_le_mono_r.
  rewrite !(Qcmult_comm _ h), !(Qcmult_comm _ h').
  apply Qcmult_le_compat_r; [done |].
  destruct (Math_max_cases (- s) 0) as [[? ->] | [? ->]];
    destruct (Math_max_cases (s + d - num 24) 0) as [[? ->] | [? ->]]; qc_lin.
Qed.

(** X11: zooming in never shrinks the block.  For an event that overlaps the
    day, when the height of an hour grows the top does not move up and the
    height does not decrease, under any minimum height of the theme. *)
Theorem zoom_grows_rectangle (p : EventBlockProps) (w w' : world) :
  let ev := events w (event p) in
  let s := PackedEvent.startHour ev in
  let d := PackedEvent.duration ev in
  events w (event p) = events w' (event p) →
  themes w (theme p) = themes w' (theme p) →
  numbers w (heightByTimeInterval p) ≤ numbers w' (heightByTimeInterval p) →
  0 ≤ d → 0 ≤ s + d → s ≤ num 24 →
  ∃ top top' height height',
    fst (eventStyle p w) !! "top" ≫= target = Some top ∧
    fst (eventStyle p w') !! "top" ≫= target = Some top' ∧
    fst (eventStyle p w) !! "height" ≫= target = Some height ∧
    fst (eventStyle p w') !! "height" ≫= target = Some height' ∧
    top ≤ top' ∧ height ≤ height'.
Proof.
  intros ev s d Hev Hth Hzoom Hd Hstart Hend.
  destruct (eventStyle_top_height p w) as [Htop Hheight].
  destruct (eventStyle_top_height p w') as [Htop' Hheight'].
  rewrite Htop, Htop', Hheight, Hheight', <- Hev, <- Hth.
  eexists _, _, _, _. do 4 (split; [reflexivity |]).
  split; [by apply scaled_top_mono |].
  pose proof (scaled_height_mono _ _ _ _ Hzoom Hd Hstart Hend) as Hraw.
  destruct (minimumEventHeight (themes w (theme p))) as [m |]; [| exact Hraw].
  case_bool_decide; [by apply Math_max_mono_r | exact Hraw].
Qed.

Lemma zoom_grows_rectangle_witness :
  ∃ top top' height height',
    fst (eventStyle (sample_props None) (sample_world overnight_event false))
      !! "top" ≫= target = Some top ∧
    fst (eventStyle (sample_props None) (zoomed_world overnight_event true))
      !! "top" ≫= target = Some top' ∧
    fst (eventStyle (sample_props None) (sample_world overnight_event false))
      !! "height" ≫= target = Some height ∧
    fst (eventStyle (sample_props None) (zoomed_world overnight_event true))
      !! "height" ≫= target = Some height' ∧
    top ≤ top' ∧ height ≤ height'.
Proof.
  apply (zoom_grows_rectangle (sample_props None)
           (sample_world overnight_event false) (zoomed_world overnight_event true));
    try reflexivity; vm_compute; discriminate.
Defined.

(** X12: the day columns are [columnWidth] apart: the same event drawn one day
    further is drawn [columnWidth] further to the right, and in the first
    column, [dayIndex = 0], it is drawn at [event.left]. *)
Theorem day_columns (p p' : EventBlockProps) (w : world) :
  event p' = event p →
  columnWidth p' = columnWidth p →
  dayIndex p' = dayIndex p + 1 →
  ∃ x,
    fst (eventStyle p w) !! "left" ≫= target = Some x ∧
    fst (eventStyle p' w) !! "left" ≫= target = Some (x + columnWidth p) ∧
    (dayIndex p = 0 → x = PackedEvent.left (events w (event p))).
Proof.
  intros Hev Hcw Hday.
  destruct (eventStyle_left_width p w) as [Hleft _].
  destruct (eventStyle_left_width p' w) as [Hleft' _].
  cbn zeta in *. rewrite Hev, Hcw, Hday in Hleft'.
  eexists. split; [exact Hleft |]. split.
  - rewrite Hleft'. f_equal. ring.
  - intros ->. ring.
Qed.

Lemma day_columns_witness :
  ∃ x,
    fst (eventStyle silent_props (sample_world morning_event false))
      !! "left" ≫= target = Some x ∧
    fst (eventStyle following_day_props (sample_world morning_event false))
      !! "left" ≫= target = Some (x + num 120).
Proof.
  destruct (day_columns silent_props following_day_props (sample_world morning_event false))
    as (x & Hx & Hx' & _).
  - reflexivity.
  - reflexivity.
  - apply Qc_is_canon. reflexivity.
  - exists x. split; [exact Hx | exact Hx'].
Defined.

(** X13: a parameter can be fed back.  Pressing a block whose event is the
    parameter of an earlier press, in the same column and at the same zoom,
    yields a parameter with the same content: the spread overwrites [top],
    [height] and [leftByIndex] and keeps the rest. *)
Theorem pressing_a_parameter (p p' : EventBlockProps) (w : world) :
  let w1 := snd (_onPress p w) in
  event p' = next w →
  columnWidth p' = columnWidth p → dayIndex p' = dayIndex p →
  heightByTimeInterval p' = heightByTimeInterval p →
  events (snd (_onPress p' w1)) (next w1) = events w1 (next w).
Proof.
  intros w1 Hev Hcw Hday Hh. subst w1.
  rewrite (_onPress_eq p'), Hev, Hcw, Hday, Hh. rewrite _onPress_eq.
  cbn [snd new_event events next numbers]. rewrite !fn_lookup_insert.
  unfold spread_event. cbn [PackedEvent.startHour PackedEvent.duration PackedEvent.left
                            PackedEvent.width PackedEvent.rest].
  f_equal. apply map_eq. intros k.
  rewrite !lookup_insert. by repeat case_decide.
Qed.

Lemma pressing_a_parameter_witness :
  events (snd (_onPress parameter_props
                 (snd (_onPress silent_props (sample_world morning_event false))))) 2%nat
  = events (snd (_onPress silent_props (sample_world morning_event false))) 1%nat.
Proof.
  apply (pressing_a_parameter silent_props parameter_props
           (sample_world morning_event false)); reflexivity.
Defined.
